(** * Dittofeed deployment smoke test: [deployment/test-deployment.py]

    A shallow embedding of the script's checks ([test_endpoint],
    [test_api_health], [test_api_root], [test_dashboard]) and of its
    orchestrator [main], followed by the properties of the specification.

    The script talks to the outside world in two ways only: it issues
    HTTP GETs through [requests.get] and it prints to the console.  Both are
    kept as explicit state: a log of the requests issued so far and the list
    of lines printed so far.  What the network answers is an oracle that may
    depend on the position of the request in the run, so a server is allowed
    to answer two GETs of one URL differently. *)

From Stdlib Require Import ZArith Lia.
From stdpp Require Import base strings gmap list.

Local Open Scope Z_scope.
Local Open Scope string_scope.
Local Open Scope list_scope.

(** ** Configuration (lines 12-15) *)

Module Config.

(** [os.getenv(name, default)] over the process environment. *)
Definition getenv (environ : gmap string string) (name default : string)
  : string :=
  match environ !! name with
  | Some v => v
  | None => default
  end.

Record t : Type := Build {
  API_URL : string;
  DASHBOARD_URL : string;
  AUTH_MODE : string
}.

Definition load (environ : gmap string string) : t :=
  {| API_URL := getenv environ "API_URL" "https://api.com.caramelme.com";
     DASHBOARD_URL :=
       getenv environ "DASHBOARD_URL" "https://dashboard.com.caramelme.com";
     AUTH_MODE := getenv environ "AUTH_MODE" "multi-tenant" |}.

End Config.

(** ** The outside world *)

(** The exceptions [requests.get] and [Response.json] raise, all of them
    subclasses of [Exception].  [ConnectTimeout] inherits from both
    [ConnectionError] and [Timeout]; [ReadTimeout] from [Timeout] only. *)
Inductive exc : Type :=
  | ConnectionError
  | ConnectTimeout
  | ReadTimeout
  | JSONDecodeError
  | OtherException (msg : string).

Inductive exc_class : Type :=
  | ClsConnectionError
  | ClsTimeout
  | ClsException.

(** [isinstance(e, cls)]. *)
Definition isinstance (e : exc) (cls : exc_class) : bool :=
  match cls, e with
  | ClsException, _ => true
  | ClsConnectionError, (ConnectionError | ConnectTimeout) => true
  | ClsTimeout, (ConnectTimeout | ReadTimeout) => true
  | _, _ => false
  end.

(** [str(e)], as interpolated in the generic error line. *)
Definition str_exc (e : exc) : string :=
  match e with
  | ConnectionError => "ConnectionError"
  | ConnectTimeout => "ConnectTimeout"
  | ReadTimeout => "ReadTimeout"
  | JSONDecodeError => "JSONDecodeError"
  | OtherException msg => msg
  end.

(** A response: its status code, and what [response.json()] gives, rendered
    by [json.dumps(data, indent=2)]; [None] when the body is not JSON and
    [response.json()] raises. *)
Record response : Type := Response {
  status_code : Z;
  json : option string
}.

(** One call of [requests.get(url, timeout=...)]; redirects are followed in
    both call sites ([allow_redirects] is [True] by default for a GET). *)
Record request : Type := Get {
  req_url : string;
  req_timeout : Z
}.

Inductive outcome : Type :=
  | Responds (r : response)
  | Fails (e : exc).

(** The network: what the [n]-th request of the run yields. *)
Definition network : Type := nat -> request -> outcome.

(** Console lines, one constructor per [print] of the source, carrying the
    interpolated values. *)
Inductive line : Type :=
  | LRule                               (* '=' * 50, lines 26 and 28 *)
  | LTitle (title : string)             (* line 27 *)
  | LTesting (name url : string)        (* line 33 *)
  | LSuccess (code : Z)                 (* line 37 *)
  | LOk (code : Z)                      (* line 40 *)
  | LFailed (code : Z)                  (* line 43 *)
  | LConnectionFailed                   (* line 47 *)
  | LTimeout (timeout : Z)              (* line 50 *)
  | LError (msg : string)               (* line 53 *)
  | LHealth (data : string)             (* line 63 *)
  | LConfiguration (api dashboard mode : string)   (* lines 81-84 *)
  | LResults                            (* line 107 *)
  | LResult (name : string) (passed : bool)        (* line 110 *)
  | LTotal (passed total : nat)         (* line 112 *)
  | LAllPassed (dashboard api : string) (* lines 115-118 *)
  | LSomeFailed.                        (* lines 121-126 *)

Record world : Type := World {
  requests : list request;
  stdout : list line
}.

Definition start : world := {| requests := []; stdout := [] |}.

(** ** Computations: state passing with exceptions *)

Inductive result (A : Type) : Type :=
  | Returns (a : A)
  | Raises (e : exc).
Arguments Returns {A} a.
Arguments Raises {A} e.

Definition M (A : Type) : Type := world -> result A * world.

Definition ret {A} (a : A) : M A := fun w => (Returns a, w).

Definition raise {A} (e : exc) : M A := fun w => (Raises e, w).

Definition bind {A B} (m : M A) (k : A -> M B) : M B :=
  fun w =>
    match m w with
    | (Returns a, w') => k a w'
    | (Raises e, w') => (Raises e, w')
    end.

(** [try: body except ...: handler]: the effects of the body up to the
    raise are kept. *)
Definition try_except {A} (body : M A) (handler : exc -> M A) : M A :=
  fun w =>
    match body w with
    | (Returns a, w') => (Returns a, w')
    | (Raises e, w') => handler e w'
    end.

Notation "x <- m ;; k" := (bind m (fun x => k))
  (at level 100, m at next level, right associativity).
Notation "m ;;; k" := (bind m (fun _ => k))
  (at level 100, right associativity).

Definition print (l : line) : M unit :=
  fun w => (Returns tt, {| requests := requests w; stdout := stdout w ++ [l] |}).

(** The value a computation returns and the world it leaves. *)
Definition value {A} (r : result A * world) : result A := fst r.
Definition after {A} (r : result A * world) : world := snd r.

(** ** The script *)

Section Script.

Variable cfg : Config.t.
Variable net : network.

Let API_URL := Config.API_URL cfg.
Let DASHBOARD_URL := Config.DASHBOARD_URL cfg.
Let AUTH_MODE := Config.AUTH_MODE cfg.

(** [requests.get(url, timeout=timeout)]: the request is logged, then
    the network answers or the call raises. *)
Definition requests_get (url : string) (timeout : Z) : M response :=
  fun w =>
    let rq := {| req_url := url; req_timeout := timeout |} in
    let w' := {| requests := requests w ++ [rq]; stdout := stdout w |} in
    match net (length (requests w)) rq with
    | Responds r => (Returns r, w')
    | Fails e => (Raises e, w')
    end.

(** [response.json()]. *)
Definition response_json (r : response) : M string :=
  match json r with
  | Some data => ret data
  | None => raise JSONDecodeError
  end.

(** Lines 24-28. *)
Definition print_header (title : string) : M unit :=
  print LRule ;;; print (LTitle title) ;;; print LRule.

(** [response.status_code in [200, 301, 302, 304]], line 39. *)
Definition in_ok_codes (code : Z) : bool :=
  existsb (Z.eqb code) [200; 301; 302; 304].

(** Lines 30-54. *)
Definition test_endpoint (url name : string) (expected_status timeout : Z)
  : M bool :=
  try_except
    (print (LTesting name url) ;;;
     response <- requests_get url timeout ;;
     if (status_code response =? expected_status)%Z then
       print (LSuccess (status_code response)) ;;; ret true
     else if in_ok_codes (status_code response) then
       print (LOk (status_code response)) ;;; ret true
     else
       print (LFailed (status_code response)) ;;; ret false)
    (fun e =>
       if isinstance e ClsConnectionError then
         print LConnectionFailed ;;; ret false
       else if isinstance e ClsTimeout then
         print (LTimeout timeout) ;;; ret false
       else if isinstance e ClsException then
         print (LError (str_exc e)) ;;; ret false
       else raise e).

(** Lines 56-67.  The body of the [try] either returns from the function
    ([Some]) or falls through to line 67 ([None]); the bare [except]
    swallows whatever was raised. *)
Definition test_api_health : M bool :=
  let url := API_URL +:+ "/health" in
  returned <-
    try_except
      (response <- requests_get url 10 ;;
       if (status_code response =? 200)%Z then
         data <- response_json response ;;
         print (LHealth data) ;;;
         ret (Some true)
       else ret None)
      (fun _ => ret None) ;;
  match returned with
  | Some b => ret b
  | None => test_endpoint url "API Health" 200 10
  end.

(** Lines 69-71. *)
Definition test_dashboard : M bool :=
  test_endpoint DASHBOARD_URL "Dashboard" 200 10.

(** Lines 73-75. *)
Definition test_api_root : M bool :=
  test_endpoint API_URL "API Root" 200 10.

(** Lines 79-99 of [main]: the banner and the checks, giving the local
    list [results]. *)
Definition run_checks : M (list (string * bool)) :=
  print_header "🚀 Dittofeed Deployment Test" ;;;
  print (LConfiguration API_URL DASHBOARD_URL AUTH_MODE) ;;;
  let results : list (string * bool) := [] in
  print_header "1. External Endpoint Tests" ;;;
  r <- test_api_health ;;
  let results := results ++ [("API Health", r)] in
  r <- test_api_root ;;
  let results := results ++ [("API Root", r)] in
  r <- test_dashboard ;;
  let results := results ++ [("Dashboard", r)] in
  if String.eqb AUTH_MODE "multi-tenant" then
    print_header "2. Multi-Tenant Endpoints" ;;;
    r <- test_endpoint (API_URL +:+ "/api/workspaces") "Workspaces API" 200 10 ;;
    ret (results ++ [("Workspaces", r)])
  else ret results.

(** [sum(1 for _, result in results if result)], line 104. *)
Fixpoint count_passed (results : list (string * bool)) : nat :=
  match results with
  | [] => 0%nat
  | (_, r) :: rest =>
      if r then S (count_passed rest) else count_passed rest
  end.

(** The loop of lines 108-110. *)
Fixpoint print_results (results : list (string * bool)) : M unit :=
  match results with
  | [] => ret tt
  | (name, r) :: rest => print (LResult name r) ;;; print_results rest
  end.

(** Lines 101-127 of [main]: the summary and the exit code. *)
Definition summary (results : list (string * bool)) : M Z :=
  print_header "📊 Test Summary" ;;;
  let passed := count_passed results in
  let total := length results in
  print LResults ;;;
  print_results results ;;;
  print (LTotal passed total) ;;;
  if Nat.eqb passed total then
    print (LAllPassed DASHBOARD_URL API_URL) ;;; ret 0
  else
    print LSomeFailed ;;; ret 1.

(** Lines 77-127. *)
Definition main : M Z :=
  results <- run_checks ;;
  summary results.

End Script.

(** ** Reading a run

    The functions below say, in closed form, what a check answers, which
    requests it issues and what it prints, given the answers of the
    network.  They are related to the script by the lemmas of the next
    part. *)

(** Lines 36-44 as a function of the status code. *)
Definition status_passes (expected_status code : Z) : bool :=
  (code =? expected_status)%Z || in_ok_codes code.

(** What [test_endpoint] answers on an outcome of its GET. *)
Definition verdict (expected_status : Z) (o : outcome) : bool :=
  match o with
  | Responds r => status_passes expected_status (status_code r)
  | Fails _ => false
  end.

(** The line [test_endpoint] prints after its GET. *)
Definition endpoint_line (expected_status timeout : Z) (o : outcome) : line :=
  match o with
  | Responds r =>
      if (status_code r =? expected_status)%Z then LSuccess (status_code r)
      else if in_ok_codes (status_code r) then LOk (status_code r)
      else LFailed (status_code r)
  | Fails e =>
      if isinstance e ClsConnectionError then LConnectionFailed
      else if isinstance e ClsTimeout then LTimeout timeout
      else LError (str_exc e)
  end.

(** [m], started in [w], returns [a] after issuing the requests [reqs] and
    printing the lines [out], and does nothing else. *)
Definition runs {A} (m : M A) (w : world) (a : A)
    (reqs : list request) (out : list line) : Prop :=
  m w = (Returns a,
         {| requests := requests w ++ reqs; stdout := stdout w ++ out |}).

Definition health_url (cfg : Config.t) : string :=
  Config.API_URL cfg +:+ "/health".

Definition workspaces_url (cfg : Config.t) : string :=
  Config.API_URL cfg +:+ "/api/workspaces".

Definition multi_tenant (cfg : Config.t) : bool :=
  String.eqb (Config.AUTH_MODE cfg) "multi-tenant".

(** The first GET of [test_api_health] yields a 200 whose body parses as
    JSON: the outcome on which the function returns at line 64. *)
Definition health_is_json (o : outcome) : bool :=
  match o with
  | Responds r =>
      (status_code r =? 200)%Z &&
      match json r with Some _ => true | None => false end
  | Fails _ => false
  end.

(** The four GETs of a run, as the script issues them (all with the
    default timeout of 10 seconds). *)
Definition health_request (cfg : Config.t) : request :=
  {| req_url := health_url cfg; req_timeout := 10 |}.

Definition root_request (cfg : Config.t) : request :=
  {| req_url := Config.API_URL cfg; req_timeout := 10 |}.

Definition dashboard_request (cfg : Config.t) : request :=
  {| req_url := Config.DASHBOARD_URL cfg; req_timeout := 10 |}.

Definition workspaces_request (cfg : Config.t) : request :=
  {| req_url := workspaces_url cfg; req_timeout := 10 |}.

Section Reading.

Variable cfg : Config.t.
Variable net : network.
(** The number of requests issued before the run starts. *)
Variable n : nat.

Let health := health_request cfg.
Let root := root_request cfg.
Let dashboard := dashboard_request cfg.
Let workspaces := workspaces_request cfg.

Definition health_requests : list request :=
  if health_is_json (net n health) then [health] else [health; health].

Definition health_value : bool :=
  if health_is_json (net n health) then true
  else verdict 200 (net (S n) health).

Definition health_stdout : list line :=
  match net n health with
  | Responds {| status_code := code; json := Some data |} =>
      if (code =? 200)%Z then [LHealth data]
      else [LTesting "API Health" (health_url cfg);
            endpoint_line 200 10 (net (S n) health)]
  | _ => [LTesting "API Health" (health_url cfg);
          endpoint_line 200 10 (net (S n) health)]
  end.

(** The position of the request that follows the health check. *)
Definition after_health : nat := (n + length health_requests)%nat.

Definition checks_requests : list request :=
  (health_requests ++ [root; dashboard] ++
   (if multi_tenant cfg then [workspaces] else [])).

Definition checks_results : list (string * bool) :=
  ([("API Health", health_value);
    ("API Root", verdict 200 (net after_health root));
    ("Dashboard", verdict 200 (net (S after_health) dashboard))] ++
   (if multi_tenant cfg
    then [("Workspaces", verdict 200 (net (S (S after_health)) workspaces))]
    else [])).

Definition header (title : string) : list line :=
  [LRule; LTitle title; LRule].

Definition checks_stdout : list line :=
  (header "🚀 Dittofeed Deployment Test" ++
   [LConfiguration (Config.API_URL cfg) (Config.DASHBOARD_URL cfg)
                   (Config.AUTH_MODE cfg)] ++
   header "1. External Endpoint Tests" ++
   health_stdout ++
   [LTesting "API Root" (Config.API_URL cfg);
    endpoint_line 200 10 (net after_health root);
    LTesting "Dashboard" (Config.DASHBOARD_URL cfg);
    endpoint_line 200 10 (net (S after_health) dashboard)] ++
   (if multi_tenant cfg
    then header "2. Multi-Tenant Endpoints" ++
         [LTesting "Workspaces API" (workspaces_url cfg);
          endpoint_line 200 10 (net (S (S after_health)) workspaces)]
    else [])).

End Reading.

Definition exit_code (results : list (string * bool)) : Z :=
  if Nat.eqb (count_passed results) (length results) then 0 else 1.

Definition summary_stdout (cfg : Config.t) (results : list (string * bool))
  : list line :=
  (header "📊 Test Summary" ++
   [LResults] ++
   map (fun p => LResult (fst p) (snd p)) results ++
   [LTotal (count_passed results) (length results)] ++
   [if Nat.eqb (count_passed results) (length results)
    then LAllPassed (Config.DASHBOARD_URL cfg) (Config.API_URL cfg)
    else LSomeFailed]).

(** What a computation adds to the request log and to the console. *)
Definition issued {A} (m : M A) (w : world) : list request :=
  drop (length (requests w)) (requests (after (m w))).

Definition printed {A} (m : M A) (w : world) : list line :=
  drop (length (stdout w)) (stdout (after (m w))).

(** The [(passed, total)] pairs of the total lines (line 112) among some
    printed lines. *)
Definition total_lines (out : list line) : list (nat * nat) :=
  omap (fun l => match l with LTotal p t => Some (p, t) | _ => None end) out.

(** The checks a configuration asks for, by the name they get in
    [results], and the URLs they target. *)
Definition configured_checks (cfg : Config.t) : list string :=
  ["API Health"; "API Root"; "Dashboard"] ++
  (if multi_tenant cfg then ["Workspaces"] else []).

Definition targets (cfg : Config.t) : list string :=
  [health_url cfg; Config.API_URL cfg; Config.DASHBOARD_URL cfg] ++
  (if multi_tenant cfg then [workspaces_url cfg] else []).

(** The number of GETs of [url] in a request log. *)
Definition gets_of (url : string) (log : list request) : nat :=
  length (filter (fun rq => req_url rq = url) log).

(** Section 2 of the specification, read literally: in a run of the
    program every target endpoint receives exactly one GET. *)
Definition one_get_per_endpoint (cfg : Config.t) (net : network) : Prop :=
  forall url, url ∈ targets cfg ->
    gets_of url (issued (main cfg net) start) = 1%nat.

(** Section 4.2 of the specification, read literally: started in one
    world, the health check and the generic checker applied to the health
    URL return the same boolean. *)
Definition health_check_is_generic_check : Prop :=
  forall cfg net w,
    value (test_api_health cfg net w)
    = value (test_endpoint net (health_url cfg) "API Health" 200 10 w).

(** ** Scenarios *)

(** The configuration of an empty environment, and of one that only sets
    [AUTH_MODE]. *)
Definition default_cfg : Config.t := Config.load ∅.

Definition single_tenant_cfg : Config.t :=
  Config.load (<["AUTH_MODE" := "single-tenant"]> ∅).

(** A response with a status code and a body that is not JSON, and a 200
    with a JSON body. *)
Definition status (code : Z) : outcome :=
  Responds {| status_code := code; json := None |}.

Definition healthy : outcome :=
  Responds {| status_code := 200; json := Some "{}" |}.

(** Networks: one answer for everything, an answer per URL, answers by
    position of the request in the run. *)
Definition always (o : outcome) : network := fun _ _ => o.

Definition by_url (f : string -> outcome) : network :=
  fun _ rq => f (req_url rq).

Definition in_turn (os : list outcome) (rest : outcome) : network :=
  fun n _ => default rest (os !! n).

(** An environment that sets the API URL only. *)
Definition local_environ : gmap string string :=
  {[ "API_URL" := "http://localhost:3001" ]}.

(** ** Reading the console *)

(** The lines the checks print (lines 33-63), as opposed to the headers,
    the banner and the summary. *)
Definition check_line (l : line) : bool :=
  match l with
  | LTesting _ _ | LSuccess _ | LOk _ | LFailed _ | LConnectionFailed
  | LTimeout _ | LError _ | LHealth _ => true
  | _ => false
  end.

(** The rows of the results table (line 110) among some printed lines. *)
Definition result_lines (out : list line) : list (string * bool) :=
  omap (fun l => match l with LResult name r => Some (name, r) | _ => None end)
       out.

(** The titles of the headers (line 27) among some printed lines. *)
Definition titles (out : list line) : list string :=
  omap (fun l => match l with LTitle title => Some title | _ => None end) out.

(** ** The script against its reading *)

Section Runs.

Context {A B : Type}.

Lemma runs_ret (a : A) w : runs (ret a) w a [] [].
Proof. unfold runs, ret. destruct w; simpl. by rewrite !app_nil_r. Qed.

Lemma runs_bind (m : M A) (k : A -> M B) w a b r1 o1 r2 o2 :
  runs m w a r1 o1 ->
  runs (k a) {| requests := requests w ++ r1; stdout := stdout w ++ o1 |}
       b r2 o2 ->
  runs (bind m k) w b (r1 ++ r2) (o1 ++ o2).
Proof.
  unfold runs, bind. intros -> ->. simpl. by rewrite !app_assoc.
Qed.

End Runs.

Lemma runs_print l w : runs (print l) w tt [] [l].
Proof. unfold runs, print. by rewrite app_nil_r. Qed.

Lemma runs_print_header title w :
  runs (print_header title) w tt [] (header title).
Proof.
  unfold print_header.
  eapply (runs_bind _ _ _ _ _ [] [_] [] [_; _]); [apply runs_print|].
  eapply (runs_bind _ _ _ _ _ [] [_] [] [_]); apply runs_print.
Qed.

Lemma runs_test_endpoint net url name e t w :
  let o := net (length (requests w)) {| req_url := url; req_timeout := t |} in
  runs (test_endpoint net url name e t) w (verdict e o)
       [{| req_url := url; req_timeout := t |}]
       [LTesting name url; endpoint_line e t o].
Proof.
  unfold runs, test_endpoint, try_except, bind, requests_get, print, ret.
  simpl.
  destruct (net _ _) as [r|ex]; simpl.
  - unfold status_passes.
    destruct (status_code r =? e)%Z; simpl; [by rewrite <- app_assoc|].
    destruct (in_ok_codes (status_code r)); simpl; by rewrite <- app_assoc.
  - destruct ex; simpl; by rewrite <- app_assoc.
Qed.

(** [test_endpoint] started right after one logged request. *)
Lemma test_endpoint_after_get net url name e t w rq :
  let o := net (S (length (requests w)))
               {| req_url := url; req_timeout := t |} in
  test_endpoint net url name e t
    {| requests := requests w ++ [rq]; stdout := stdout w |} =
  (Returns (verdict e o),
   {| requests := requests w ++ [rq; {| req_url := url; req_timeout := t |}];
      stdout := stdout w ++ [LTesting name url; endpoint_line e t o] |}).
Proof.
  intros o.
  pose proof (runs_test_endpoint net url name e t
    {| requests := requests w ++ [rq]; stdout := stdout w |}) as H.
  unfold runs in H. simpl in H.
  rewrite length_app, Nat.add_1_r, <- app_assoc in H. exact H.
Qed.

Lemma runs_test_api_health cfg net w :
  let n := length (requests w) in
  runs (test_api_health cfg net) w (health_value cfg net n)
       (health_requests cfg net n) (health_stdout cfg net n).
Proof.
  intros n. unfold runs, health_value, health_requests, health_stdout.
  unfold test_api_health, bind, try_except, requests_get. fold n.
  fold (health_url cfg). simpl.
  destruct (net n _) as [[code js]|ex]; simpl;
    [|apply test_endpoint_after_get].
  destruct (code =? 200)%Z; simpl;
    [|destruct js; apply test_endpoint_after_get].
  destruct js as [data|]; simpl; [reflexivity|].
  apply test_endpoint_after_get.
Qed.

Lemma runs_print_results results w :
  runs (print_results results) w tt []
       (map (fun p => LResult (fst p) (snd p)) results).
Proof.
  revert w. induction results as [|[name r] rest IH]; intros w.
  - apply runs_ret.
  - simpl.
    apply (runs_bind _ _ _ tt tt [] [_] [] _); [apply runs_print|apply IH].
Qed.

Lemma runs_summary cfg results w :
  runs (summary cfg results) w (exit_code results) []
       (summary_stdout cfg results).
Proof.
  unfold summary, summary_stdout, exit_code.
  apply (runs_bind _ _ _ tt _ [] _ [] _); [apply runs_print_header|].
  apply (runs_bind _ _ _ tt _ [] _ [] _); [apply runs_print|].
  apply (runs_bind _ _ _ tt _ [] _ [] _); [apply runs_print_results|].
  apply (runs_bind _ _ _ tt _ [] _ [] _); [apply runs_print|].
  destruct (Nat.eqb _ _);
    apply (runs_bind _ _ _ tt _ [] [_] [] []);
    (apply runs_print || apply runs_ret).
Qed.

Lemma runs_eq {A} (m : M A) w a a' r r' o o' :
  runs m w a r o -> a = a' -> r = r' -> o = o' -> runs m w a' r' o'.
Proof. by intros H <- <- <-. Qed.

(** One statement of a sequence: run it with [lem], go on in the world it
    leaves. *)
Ltac run_step lem :=
  eapply runs_bind; [apply lem|]; cbn beta zeta iota delta [requests stdout].

(** Bring the positions and the logs collected by [run_step] to the shape
    of the reading. *)
Ltac tidy_run :=
  cbn [requests stdout];
  rewrite ?app_nil_r, ?length_app; cbn [length];
  rewrite ?Nat.add_1_r, <- ?app_assoc;
  reflexivity.

Lemma runs_run_checks cfg net w :
  let n := length (requests w) in
  runs (run_checks cfg net) w (checks_results cfg net n)
       (checks_requests cfg net n) (checks_stdout cfg net n).
Proof.
  intros n.
  unfold run_checks, checks_results, checks_requests, checks_stdout,
    after_health.
  fold (multi_tenant cfg). fold (workspaces_url cfg).
  destruct (multi_tenant cfg); eapply runs_eq.
  - run_step runs_print_header.
    run_step runs_print.
    run_step runs_print_header.
    run_step runs_test_api_health.
    run_step runs_test_endpoint.
    run_step runs_test_endpoint.
    run_step runs_print_header.
    run_step runs_test_endpoint.
    apply runs_ret.
  - fold n. tidy_run.
  - fold n. tidy_run.
  - fold n. tidy_run.
  - run_step runs_print_header.
    run_step runs_print.
    run_step runs_print_header.
    run_step runs_test_api_health.
    run_step runs_test_endpoint.
    run_step runs_test_endpoint.
    apply runs_ret.
  - fold n. tidy_run.
  - fold n. tidy_run.
  - fold n. tidy_run.
Qed.

Lemma runs_main cfg net w :
  let n := length (requests w) in
  runs (main cfg net) w (exit_code (checks_results cfg net n))
       (checks_requests cfg net n)
       (checks_stdout cfg net n ++ summary_stdout cfg (checks_results cfg net n)).
Proof.
  intros n. unfold main. eapply runs_eq.
  - run_step runs_run_checks. apply runs_summary.
  - reflexivity.
  - apply app_nil_r.
  - reflexivity.
Qed.

(** ** What a run leaves behind *)

Section Observations.

Context {A : Type} (m : M A) (w : world) (a : A).
Context (reqs : list request) (out : list line).
Hypothesis Hrun : runs m w a reqs out.

Lemma runs_value : value (m w) = Returns a.
Proof using Hrun. unfold value. by rewrite Hrun. Qed.

Lemma runs_requests : requests (after (m w)) = requests w ++ reqs.
Proof using Hrun. unfold after. by rewrite Hrun. Qed.

Lemma runs_stdout : stdout (after (m w)) = stdout w ++ out.
Proof using Hrun. unfold after. by rewrite Hrun. Qed.

End Observations.

Lemma in_ok_codes_spec code :
  in_ok_codes code = true <-> code ∈ [200; 301; 302; 304].
Proof.
  unfold in_ok_codes. cbn [existsb].
  rewrite !orb_true_iff, !Z.eqb_eq, !elem_of_cons, elem_of_nil.
  intuition discriminate.
Qed.

Lemma status_passes_spec e code :
  status_passes e code = true <->
  code = e \/ code ∈ [200; 301; 302; 304].
Proof.
  unfold status_passes.
  by rewrite orb_true_iff, Z.eqb_eq, in_ok_codes_spec.
Qed.

Lemma count_passed_filter results :
  count_passed results = length (filter (fun p => p.2 = true) results).
Proof.
  induction results as [|[name r] rest IH]; [reflexivity|].
  destruct r; cbn [count_passed].
  - rewrite filter_cons_True by reflexivity. cbn [length]. by rewrite IH.
  - rewrite filter_cons_False by (simpl; discriminate). exact IH.
Qed.

Lemma count_passed_le results :
  (count_passed results <= length results)%nat.
Proof.
  induction results as [|[name r] rest IH]; simpl; [lia|].
  destruct r; lia.
Qed.

Lemma count_passed_all results :
  count_passed results = length results <->
  Forall (fun p => p.2 = true) results.
Proof.
  induction results as [|[name r] rest IH]; simpl.
  - split; [constructor|reflexivity].
  - pose proof (count_passed_le rest). rewrite Forall_cons. simpl.
    destruct r.
    + rewrite <- IH. split; [intros; split; [reflexivity|lia]|intros []; lia].
    + split; [lia|intros [? _]; discriminate].
Qed.

Lemma exit_code_zero results :
  exit_code results = 0 <-> Forall (fun p => p.2 = true) results.
Proof.
  unfold exit_code. rewrite <- count_passed_all.
  destruct (Nat.eqb_spec (count_passed results) (length results));
    split; intros; (done || lia).
Qed.

Lemma exit_code_one results :
  exit_code results = 1 <-> Exists (fun p => p.2 = false) results.
Proof.
  assert (Exists (fun p : string * bool => p.2 = false) results <->
          ~ Forall (fun p => p.2 = true) results) as ->.
  { induction results as [|[name r] rest IH].
    - rewrite Exists_nil. split; [tauto|intros H; apply H; constructor].
    - rewrite Exists_cons, Forall_cons, IH. simpl. destruct r.
      + split; [intros [?|?] [_ ?]; [discriminate|tauto]|].
        intros H. right. intros ?. apply H. by split.
      + split; [intros _ [? _]; discriminate|tauto]. }
  rewrite <- exit_code_zero. unfold exit_code.
  destruct (Nat.eqb _ _); split; intros; (done || lia).
Qed.

Lemma checks_results_names cfg net n :
  (checks_results cfg net n).*1 =
  (["API Health"; "API Root"; "Dashboard"] ++
   if multi_tenant cfg then ["Workspaces"] else []).
Proof. unfold checks_results. by destruct (multi_tenant cfg). Qed.

Lemma multi_tenant_spec cfg :
  multi_tenant cfg = true <-> Config.AUTH_MODE cfg = "multi-tenant".
Proof. unfold multi_tenant. apply String.eqb_eq. Qed.

Lemma runs_issued {A} (m : M A) w a reqs out :
  runs m w a reqs out -> issued m w = reqs.
Proof.
  intros H. unfold issued. rewrite (runs_requests _ _ _ _ _ H).
  apply drop_app_length.
Qed.

Lemma runs_printed {A} (m : M A) w a reqs out :
  runs m w a reqs out -> printed m w = out.
Proof.
  intros H. unfold printed. rewrite (runs_stdout _ _ _ _ _ H).
  apply drop_app_length.
Qed.

Lemma total_lines_app out1 out2 :
  total_lines (out1 ++ out2) = total_lines out1 ++ total_lines out2.
Proof. apply omap_app. Qed.

Lemma total_lines_two l1 l2 out :
  total_lines (l1 :: l2 :: out) = total_lines [l1; l2] ++ total_lines out.
Proof. apply (total_lines_app [l1; l2] out). Qed.

Lemma total_lines_endpoint name url e t o :
  total_lines [LTesting name url; endpoint_line e t o] = [].
Proof.
  destruct o as [r|ex]; cbn [endpoint_line].
  - destruct (status_code r =? e)%Z; [reflexivity|].
    by destruct (in_ok_codes (status_code r)).
  - destruct (isinstance ex ClsConnectionError); [reflexivity|].
    by destruct (isinstance ex ClsTimeout).
Qed.

Lemma total_lines_health cfg net n :
  total_lines (health_stdout cfg net n) = [].
Proof.
  unfold health_stdout.
  destruct (net n _) as [[code [data|]]|ex];
    try apply total_lines_endpoint.
  destruct (code =? 200)%Z; [reflexivity|apply total_lines_endpoint].
Qed.

Lemma total_lines_checks cfg net n :
  total_lines (checks_stdout cfg net n) = [].
Proof.
  unfold checks_stdout.
  rewrite !total_lines_app, total_lines_health.
  rewrite (total_lines_two (LTesting "API Root" _)), !total_lines_endpoint.
  destruct (multi_tenant cfg); [|reflexivity].
  by rewrite total_lines_app, total_lines_endpoint.
Qed.

Lemma total_lines_summary cfg results :
  total_lines (summary_stdout cfg results) =
  [(count_passed results, length results)].
Proof.
  unfold summary_stdout. rewrite !total_lines_app.
  assert (total_lines (map (fun p => LResult p.1 p.2) results) = []) as ->.
  { induction results as [|p rest IH]; [reflexivity|exact IH]. }
  by destruct (Nat.eqb _ _).
Qed.


(** ** The properties of the specification *)

(** C1. For every response received by [test_endpoint] with expected status
    [e], the function returns true if and only if the status code equals
    [e] or is one of 200, 301, 302, 304; any other status code yields
    false. *)
Theorem test_endpoint_status_iff net url name e t w r :
  net (length (requests w)) {| req_url := url; req_timeout := t |}
    = Responds r ->
  (value (test_endpoint net url name e t w) = Returns true <->
   status_code r = e \/ status_code r ∈ [200; 301; 302; 304]) /\
  (value (test_endpoint net url name e t w) = Returns false <->
   ~ (status_code r = e \/ status_code r ∈ [200; 301; 302; 304])).
Proof.
  intros Hnet.
  rewrite (runs_value _ _ _ _ _ (runs_test_endpoint net url name e t w)).
  rewrite Hnet. cbn [verdict].
  rewrite <- status_passes_spec.
  destruct (status_passes e (status_code r)); split; split;
    intros H; (done || (exfalso; apply H; done) || (exfalso; by apply H)
               || congruence).
Qed.

Lemma test_endpoint_status_iff_witness :
  value (test_endpoint (always (status 304)) "https://example.org" "Root"
           200 10 start) = Returns true /\
  value (test_endpoint (always (status 404)) "https://example.org" "Root"
           404 10 start) = Returns true /\
  value (test_endpoint (always (status 500)) "https://example.org" "Root"
           200 10 start) = Returns false.
Proof.
  split; [|split].
  - apply (test_endpoint_status_iff (always (status 304)) _ _ 200 10 start
             {| status_code := 304; json := None |}); [reflexivity|].
    right. set_solver.
  - apply (test_endpoint_status_iff (always (status 404)) _ _ 404 10 start
             {| status_code := 404; json := None |}); [reflexivity|].
    by left.
  - apply (test_endpoint_status_iff (always (status 500)) _ _ 200 10 start
             {| status_code := 500; json := None |}); [reflexivity|].
    cbn. rewrite !elem_of_cons, elem_of_nil. intuition discriminate.
Defined.

(** The summary stage on any list of results. *)
Lemma summary_exit_code cfg results w :
  value (summary cfg results w) = Returns (exit_code results).
Proof. apply (runs_value _ _ _ _ _ (runs_summary cfg results w)). Qed.

(** C2. [main] returns exit code 0 if and only if every entry of the
    results list has passed, and returns 1 otherwise, that is when at least
    one check failed. *)
Theorem main_exit_code_iff_all_passed cfg net w :
  exists results,
    value (run_checks cfg net w) = Returns results /\
    (value (main cfg net w) = Returns 0 <->
     Forall (fun p => p.2 = true) results) /\
    (value (main cfg net w) = Returns 1 <->
     Exists (fun p => p.2 = false) results).
Proof.
  exists (checks_results cfg net (length (requests w))).
  rewrite (runs_value _ _ _ _ _ (runs_run_checks cfg net w)).
  rewrite (runs_value _ _ _ _ _ (runs_main cfg net w)).
  rewrite <- exit_code_zero, <- exit_code_one.
  split; [reflexivity|]. split; split; congruence.
Qed.

(** C3. The Workspaces check is in the results list produced by [main] if
    and only if [AUTH_MODE] is exactly the string multi-tenant; for any
    other value the list has exactly three entries. *)
Theorem workspaces_iff_multi_tenant cfg net w :
  exists results,
    value (run_checks cfg net w) = Returns results /\
    ("Workspaces" ∈ results.*1 <-> Config.AUTH_MODE cfg = "multi-tenant") /\
    (Config.AUTH_MODE cfg <> "multi-tenant" -> length results = 3%nat).
Proof.
  exists (checks_results cfg net (length (requests w))).
  split; [apply (runs_value _ _ _ _ _ (runs_run_checks cfg net w))|].
  rewrite checks_results_names, <- multi_tenant_spec.
  unfold checks_results.
  destruct (multi_tenant cfg); split.
  - split; [done|]. intros _. set_solver.
  - done.
  - split; [|done]. cbn. rewrite !elem_of_cons, elem_of_nil.
    intuition discriminate.
  - done.
Qed.

Lemma workspaces_iff_multi_tenant_witness :
  exists results,
    value (run_checks single_tenant_cfg (always healthy) start)
      = Returns results /\
    length results = 3%nat /\
    ~ "Workspaces" ∈ results.*1.
Proof.
  destruct (workspaces_iff_multi_tenant single_tenant_cfg (always healthy)
              start) as (results & Hrun & Hiff & Hlen).
  exists results. split; [exact Hrun|]. split.
  - apply Hlen. vm_compute. discriminate.
  - rewrite Hiff. vm_compute. discriminate.
Defined.

(** C4. Whenever the HTTP GET raises (a connection failure, a timeout or
    any other exception), [test_endpoint] returns false and hands no
    exception to its caller; on every input the function returns a
    boolean. *)
Theorem test_endpoint_catches_exceptions net url name e t w :
  (exists b, value (test_endpoint net url name e t w) = Returns b) /\
  (forall ex,
     net (length (requests w)) {| req_url := url; req_timeout := t |}
       = Fails ex ->
     value (test_endpoint net url name e t w) = Returns false).
Proof.
  rewrite (runs_value _ _ _ _ _ (runs_test_endpoint net url name e t w)).
  split; [by eexists|].
  by intros ex ->.
Qed.

Lemma test_endpoint_catches_exceptions_witness :
  value (test_endpoint (always (Fails ConnectionError)) "https://example.org"
           "Root" 200 10 start) = Returns false /\
  value (test_endpoint (always (Fails ReadTimeout)) "https://example.org"
           "Root" 200 10 start) = Returns false /\
  value (test_endpoint (always (Fails (OtherException "bad URL")))
           "https://example.org" "Root" 200 10 start) = Returns false.
Proof.
  split; [|split].
  - apply (proj2 (test_endpoint_catches_exceptions
                    (always (Fails ConnectionError)) _ _ 200 10 start)
                 ConnectionError).
    reflexivity.
  - apply (proj2 (test_endpoint_catches_exceptions
                    (always (Fails ReadTimeout)) _ _ 200 10 start)
                 ReadTimeout).
    reflexivity.
  - apply (proj2 (test_endpoint_catches_exceptions
                    (always (Fails (OtherException "bad URL"))) _ _ 200 10
                    start)
                 (OtherException "bad URL")).
    reflexivity.
Defined.

(** C5. Whatever the requests yield, exceptions included, [main] runs every
    configured check, each contributes exactly one entry to the results
    list, and execution reaches the summary stage; in particular the
    Dashboard check is run, on the answer to its own GET, also when the
    requests to the API URL fail. *)
Theorem main_runs_every_check cfg net w :
  exists results code k,
    value (run_checks cfg net w) = Returns results /\
    results.*1 = configured_checks cfg /\
    value (main cfg net w) = Returns code /\
    [health_request cfg; root_request cfg; dashboard_request cfg] ++
      (if multi_tenant cfg then [workspaces_request cfg] else [])
      ⊆ issued (main cfg net) w /\
    LTitle "📊 Test Summary" ∈ printed (main cfg net) w /\
    LTesting "Dashboard" (Config.DASHBOARD_URL cfg)
      ∈ printed (main cfg net) w /\
    requests (after (main cfg net w)) !! k = Some (dashboard_request cfg) /\
    ("Dashboard", verdict 200 (net k (dashboard_request cfg))) ∈ results.
Proof.
  set (n := length (requests w)).
  exists (checks_results cfg net n), (exit_code (checks_results cfg net n)),
    (S (after_health cfg net n)).
  rewrite (runs_value _ _ _ _ _ (runs_run_checks cfg net w)).
  rewrite (runs_value _ _ _ _ _ (runs_main cfg net w)).
  rewrite (runs_issued _ _ _ _ _ (runs_main cfg net w)).
  rewrite (runs_printed _ _ _ _ _ (runs_main cfg net w)).
  rewrite (runs_requests _ _ _ _ _ (runs_main cfg net w)).
  fold n. repeat split.
  - apply checks_results_names.
  - unfold checks_requests, health_requests.
    destruct (health_is_json _), (multi_tenant cfg); intros rq;
      rewrite ?elem_of_app, ?elem_of_cons, ?elem_of_nil; tauto.
  - unfold summary_stdout, header. set_solver.
  - unfold checks_stdout. set_solver.
  - unfold checks_requests. rewrite !app_assoc.
    rewrite <- (app_assoc _ _ (if multi_tenant cfg then _ else _)).
    change ([root_request cfg; dashboard_request cfg] ++
            if multi_tenant cfg then [workspaces_request cfg] else [])
      with ([root_request cfg] ++ dashboard_request cfg ::
            if multi_tenant cfg then [workspaces_request cfg] else []).
    rewrite app_assoc. apply list_lookup_middle.
    unfold after_health, n. rewrite !length_app. cbn [length]. lia.
  - unfold checks_results. set_solver.
Qed.

(** C6, as the specification words it, fails: when the health endpoint
    answers 500 it receives two GETs in one run. *)
Lemma health_endpoint_gets_two_requests :
  ~ one_get_per_endpoint default_cfg (always (status 500)).
Proof.
  intros H.
  specialize (H (health_url default_cfg)).
  assert (health_url default_cfg ∈ targets default_cfg) as Hin
    by (vm_compute; left).
  specialize (H Hin). vm_compute in H. discriminate.
Qed.

(** C6, amended. Every run issues exactly one GET for the API root, for
    the dashboard and, in multi-tenant mode, for the workspaces endpoint;
    the health endpoint receives one GET when its first answer is a 200
    with a JSON body, and a second GET otherwise.  Nothing else is
    requested. *)
Theorem main_request_log cfg net w :
  issued (main cfg net) w =
  (if health_is_json (net (length (requests w)) (health_request cfg))
   then [health_request cfg]
   else [health_request cfg; health_request cfg]) ++
  [root_request cfg; dashboard_request cfg] ++
  (if multi_tenant cfg then [workspaces_request cfg] else []).
Proof. apply (runs_issued _ _ _ _ _ (runs_main cfg net w)). Qed.

(** C7, as the specification words it, fails: a server that answers the
    first GET of the health URL with 500 and the second with 200 makes the
    health check pass where the generic checker, which sees the first
    answer, fails. *)
Lemma health_check_is_not_generic_check : ~ health_check_is_generic_check.
Proof.
  intros H.
  specialize (H default_cfg (in_turn [status 500] (status 200)) start).
  vm_compute in H. discriminate.
Qed.

(** C7, amended. [test_api_health] never raises, and its boolean is the
    status-code logic of the generic checker applied to the answer that
    decides the check: the first answer when it is a 200 whose body parses
    as JSON, the answer to the second GET otherwise.  In that second case,
    a JSON parse failure included, what went wrong is dropped and the whole
    check is the call of [test_endpoint] on the health URL, made after the
    first GET.  So the health check returns the same boolean as
    [test_endpoint] started in its place whenever the server answers the
    two GETs alike. *)
Theorem test_api_health_verdict cfg net w :
  let n := length (requests w) in
  let generic := test_endpoint net (health_url cfg) "API Health" 200 10 in
  let first := net n (health_request cfg) in
  let second := net (S n) (health_request cfg) in
  value (test_api_health cfg net w)
    = Returns (verdict 200 (if health_is_json first then first else second)) /\
  (health_is_json first = false ->
   test_api_health cfg net w
     = generic {| requests := requests w ++ [health_request cfg];
                  stdout := stdout w |}) /\
  (second = first ->
   value (test_api_health cfg net w) = value (generic w)).
Proof.
  intros n generic first second.
  pose proof (runs_test_api_health cfg net w) as Hh. cbn zeta in Hh.
  pose proof (runs_value _ _ _ _ _ Hh) as Hv.
  fold n in Hh, Hv. unfold health_value in Hv.
  fold first second in Hv.
  assert (health_is_json first = true -> verdict 200 first = true) as Hjson.
  { destruct first as [[code js]|ex]; cbn [health_is_json verdict status_code];
      [|discriminate].
    intros [Hcode _]%andb_true_iff. unfold status_passes. by rewrite Hcode. }
  split; [|split].
  - rewrite Hv. destruct (health_is_json first) eqn:Hfirst; [|reflexivity].
    by rewrite (Hjson eq_refl).
  - intros Hfirst. unfold runs in Hh. rewrite Hh.
    unfold generic. rewrite test_endpoint_after_get.
    unfold health_value, health_requests, health_stdout.
    fold n first second. rewrite Hfirst.
    destruct first as [[code [data|]]|ex]; try reflexivity.
    cbn [health_is_json status_code json] in Hfirst.
    rewrite andb_true_r in Hfirst. by rewrite Hfirst.
  - intros Hsame. rewrite Hv, Hsame.
    unfold generic.
    rewrite (runs_value _ _ _ _ _
               (runs_test_endpoint net (health_url cfg) "API Health" 200 10 w)).
    fold n (health_request cfg) first.
    destruct (health_is_json first) eqn:Hfirst; [|reflexivity].
    by rewrite (Hjson eq_refl).
Qed.

Lemma test_api_health_verdict_witness :
  test_api_health default_cfg (always (status 200)) start
    = test_endpoint (always (status 200)) (health_url default_cfg)
        "API Health" 200 10
        {| requests := [health_request default_cfg]; stdout := [] |} /\
  value (test_api_health default_cfg (always (status 200)) start)
    = value (test_endpoint (always (status 200)) (health_url default_cfg)
               "API Health" 200 10 start).
Proof.
  destruct (test_api_health_verdict default_cfg (always (status 200)) start)
    as (_ & Hfallback & Hsame).
  split.
  - apply Hfallback. reflexivity.
  - apply Hsame. reflexivity.
Defined.

(** C8. [main] issues the checks in the fixed order API health, API root,
    dashboard, then workspaces in multi-tenant mode, each in the world the
    previous one leaves, and the results list records the (name, boolean)
    pairs in that order. *)
Theorem main_checks_in_fixed_order cfg net w :
  let w0 :=
    {| requests := requests w;
       stdout := stdout w ++ header "🚀 Dittofeed Deployment Test" ++
                 [LConfiguration (Config.API_URL cfg)
                    (Config.DASHBOARD_URL cfg) (Config.AUTH_MODE cfg)] ++
                 header "1. External Endpoint Tests" |} in
  exists b1 b2 b3 w1 w2 w3,
    test_api_health cfg net w0 = (Returns b1, w1) /\
    test_api_root cfg net w1 = (Returns b2, w2) /\
    test_dashboard cfg net w2 = (Returns b3, w3) /\
    (if multi_tenant cfg then
       exists b4 w4,
         test_endpoint net (workspaces_url cfg) "Workspaces API" 200 10
           {| requests := requests w3;
              stdout := stdout w3 ++ header "2. Multi-Tenant Endpoints" |}
           = (Returns b4, w4) /\
         run_checks cfg net w =
           (Returns [("API Health", b1); ("API Root", b2); ("Dashboard", b3);
                     ("Workspaces", b4)], w4)
     else
       run_checks cfg net w =
         (Returns [("API Health", b1); ("API Root", b2); ("Dashboard", b3)],
          w3)) /\
    req_url <$> issued (main cfg net) w =
      [health_url cfg] ++
      (if health_is_json (net (length (requests w)) (health_request cfg))
       then [] else [health_url cfg]) ++
      [Config.API_URL cfg; Config.DASHBOARD_URL cfg] ++
      (if multi_tenant cfg then [workspaces_url cfg] else []).
Proof.
  intros w0.
  pose proof (runs_run_checks cfg net w) as Hrun. cbn zeta in Hrun.
  unfold runs in Hrun.
  unfold checks_results, checks_requests, checks_stdout, after_health
    in Hrun.
  do 6 eexists.
  split; [exact (runs_test_api_health cfg net w0)|].
  split; [exact (runs_test_endpoint net _ _ 200 10 _)|].
  split; [exact (runs_test_endpoint net _ _ 200 10 _)|].
  split.
  - destruct (multi_tenant cfg).
    + do 2 eexists.
      split; [exact (runs_test_endpoint net _ _ 200 10 _)|].
      rewrite Hrun. subst w0. f_equal; [|f_equal]; tidy_run.
    + rewrite Hrun. subst w0. f_equal; [|f_equal]; tidy_run.
  - rewrite (runs_issued _ _ _ _ _ (runs_main cfg net w)).
    unfold checks_requests, health_requests.
    by destruct (health_is_json _), (multi_tenant cfg).
Qed.

(** C9. Whenever the first GET of [test_api_health] does not yield a 200
    whose body parses as JSON, the function issues a second GET to the same
    URL and returns the verdict of the generic checker on that second
    answer alone: two networks that agree on the second answer give the
    same boolean, whatever the first answers were. *)
Theorem test_api_health_second_get_decides cfg net w :
  let n := length (requests w) in
  health_is_json (net n (health_request cfg)) = false ->
  issued (test_api_health cfg net) w
    = [health_request cfg; health_request cfg] /\
  value (test_api_health cfg net w)
    = Returns (verdict 200 (net (S n) (health_request cfg))) /\
  (forall net',
     health_is_json (net' n (health_request cfg)) = false ->
     net' (S n) (health_request cfg) = net (S n) (health_request cfg) ->
     value (test_api_health cfg net' w) = value (test_api_health cfg net w)).
Proof.
  intros n Hfirst.
  rewrite (runs_issued _ _ _ _ _ (runs_test_api_health cfg net w)).
  rewrite (runs_value _ _ _ _ _ (runs_test_api_health cfg net w)).
  unfold health_requests, health_value. fold n. rewrite Hfirst.
  repeat split.
  intros net' Hfirst' Hsecond.
  rewrite (runs_value _ _ _ _ _ (runs_test_api_health cfg net' w)).
  unfold health_value. fold n. by rewrite Hfirst', Hsecond.
Qed.

Lemma test_api_health_second_get_decides_witness :
  issued (test_api_health default_cfg
            (in_turn [status 301; status 500] healthy)) start
    = [health_request default_cfg; health_request default_cfg] /\
  value (test_api_health default_cfg
           (in_turn [status 301; status 500] healthy) start)
    = Returns false /\
  value (test_api_health default_cfg
           (in_turn [Fails ReadTimeout; status 500] healthy) start)
    = value (test_api_health default_cfg
               (in_turn [status 301; status 500] healthy) start).
Proof.
  destruct (test_api_health_second_get_decides default_cfg
              (in_turn [status 301; status 500] healthy) start)
    as (Hlog & Hvalue & Hsame); [reflexivity|].
  split; [exact Hlog|]. split; [exact Hvalue|].
  apply Hsame; reflexivity.
Defined.

(** C10. In every run the results list has three or four entries, named
    API Health, API Root, Dashboard and, in the four-entry case only,
    Workspaces, in that order; the one total line printed carries the
    number of true entries and the length of the list, the former never
    above the latter; and [main] returns 0 or 1. *)
Theorem main_results_invariants cfg net w :
  exists results code,
    value (run_checks cfg net w) = Returns results /\
    value (main cfg net w) = Returns code /\
    ((length results = 3%nat /\
      results.*1 = ["API Health"; "API Root"; "Dashboard"]) \/
     (length results = 4%nat /\
      results.*1 = ["API Health"; "API Root"; "Dashboard"; "Workspaces"])) /\
    total_lines (printed (main cfg net) w)
      = [(length (filter (fun p => p.2 = true) results), length results)] /\
    (length (filter (fun p => p.2 = true) results) <= length results)%nat /\
    (code = 0 \/ code = 1).
Proof.
  set (n := length (requests w)).
  exists (checks_results cfg net n), (exit_code (checks_results cfg net n)).
  rewrite (runs_value _ _ _ _ _ (runs_run_checks cfg net w)).
  rewrite (runs_value _ _ _ _ _ (runs_main cfg net w)).
  rewrite (runs_printed _ _ _ _ _ (runs_main cfg net w)).
  fold n. rewrite <- count_passed_filter.
  split; [reflexivity|]. split; [reflexivity|]. split; [|split; [|split]].
  - rewrite checks_results_names. unfold checks_results.
    destruct (multi_tenant cfg); [right|left]; by split.
  - by rewrite total_lines_app, total_lines_checks, total_lines_summary.
  - apply count_passed_le.
  - unfold exit_code. destruct (Nat.eqb _ _); [by left|by right].
Qed.

(** ** The scenarios of the specification *)

(** All four endpoints answer 200: exit code 0 and a summary of 4/4. *)
Example all_endpoints_healthy :
  value (main default_cfg (always healthy) start) = Returns 0 /\
  total_lines (printed (main default_cfg (always healthy)) start) = [(4, 4)]%nat.
Proof. by vm_compute. Qed.

(** The dashboard answers 500: exit code 1, 3/4, Dashboard marked failed. *)
Example dashboard_down :
  let net := by_url (fun url =>
    if String.eqb url (Config.DASHBOARD_URL default_cfg)
    then status 500 else healthy) in
  value (main default_cfg net start) = Returns 1 /\
  total_lines (printed (main default_cfg net) start) = [(3, 4)]%nat /\
  value (run_checks default_cfg net start)
    = Returns [("API Health", true); ("API Root", true);
               ("Dashboard", false); ("Workspaces", true)].
Proof. by vm_compute. Qed.

(** Every request under the API URL fails to connect: both API checks fail
    on the connection path and the Dashboard check is still run. *)
Example api_unreachable :
  let net := by_url (fun url =>
    if String.eqb url (Config.DASHBOARD_URL single_tenant_cfg)
    then status 200 else Fails ConnectionError) in
  value (run_checks single_tenant_cfg net start)
    = Returns [("API Health", false); ("API Root", false);
               ("Dashboard", true)] /\
  printed (test_api_health single_tenant_cfg net) start
    = [LTesting "API Health" (health_url single_tenant_cfg);
       LConnectionFailed] /\
  printed (test_api_root single_tenant_cfg net) start
    = [LTesting "API Root" (Config.API_URL single_tenant_cfg);
       LConnectionFailed] /\
  value (main single_tenant_cfg net start) = Returns 1.
Proof. by vm_compute. Qed.

(** A server that answers the first GET of the health URL with 500 and
    the second with 200: the health check passes on the second answer,
    where the generic checker started in the same world sees the first. *)
Example recovering_server :
  let net := in_turn [status 500] (status 200) in
  value (test_api_health default_cfg net start) = Returns true /\
  value (test_endpoint net (health_url default_cfg) "API Health" 200 10 start)
    = Returns false.
Proof. by vm_compute. Qed.

(** ** Further properties of the script *)

(** *** The configuration *)

(** X1. A variable that is set in the environment is taken as it is, also
    when it is the empty string, and setting one of the three variables
    leaves the other two as they were. *)
Theorem load_insert environ v :
  Config.load (<["API_URL" := v]> environ)
    = {| Config.API_URL := v;
         Config.DASHBOARD_URL := Config.DASHBOARD_URL (Config.load environ);
         Config.AUTH_MODE := Config.AUTH_MODE (Config.load environ) |} /\
  Config.load (<["DASHBOARD_URL" := v]> environ)
    = {| Config.API_URL := Config.API_URL (Config.load environ);
         Config.DASHBOARD_URL := v;
         Config.AUTH_MODE := Config.AUTH_MODE (Config.load environ) |} /\
  Config.load (<["AUTH_MODE" := v]> environ)
    = {| Config.API_URL := Config.API_URL (Config.load environ);
         Config.DASHBOARD_URL := Config.DASHBOARD_URL (Config.load environ);
         Config.AUTH_MODE := v |}.
Proof.
  unfold Config.load, Config.getenv. cbn [Config.API_URL Config.DASHBOARD_URL
    Config.AUTH_MODE].
  repeat split; f_equal;
    rewrite ?lookup_insert_eq; try reflexivity;
    by rewrite lookup_insert_ne.
Qed.

(** X2. When the environment does not set [AUTH_MODE] the run is a
    multi-tenant one: the results list has the four entries and the
    workspaces endpoint under the configured API URL is requested. *)
Theorem unset_auth_mode_is_multi_tenant environ net w :
  environ !! "AUTH_MODE" = None ->
  exists results,
    value (run_checks (Config.load environ) net w) = Returns results /\
    results.*1 = ["API Health"; "API Root"; "Dashboard"; "Workspaces"] /\
    {| req_url :=
         Config.getenv environ "API_URL" "https://api.com.caramelme.com"
         +:+ "/api/workspaces";
       req_timeout := 10 |}
      ∈ issued (main (Config.load environ) net) w.
Proof.
  intros Hunset.
  set (cfg := Config.load environ).
  assert (multi_tenant cfg = true) as Hmt.
  { unfold multi_tenant, cfg, Config.load, Config.getenv.
    cbn [Config.AUTH_MODE]. by rewrite Hunset. }
  exists (checks_results cfg net (length (requests w))).
  rewrite (runs_value _ _ _ _ _ (runs_run_checks cfg net w)).
  rewrite (runs_issued _ _ _ _ _ (runs_main cfg net w)).
  rewrite checks_results_names. unfold checks_requests. rewrite Hmt.
  split; [reflexivity|]. split; [reflexivity|].
  rewrite !elem_of_app. right. right. by apply list_elem_of_singleton.
Qed.

Lemma unset_auth_mode_is_multi_tenant_witness :
  exists results,
    value (run_checks (Config.load local_environ) (always healthy) start)
      = Returns results /\
    results.*1 = ["API Health"; "API Root"; "Dashboard"; "Workspaces"] /\
    {| req_url := "http://localhost:3001/api/workspaces"; req_timeout := 10 |}
      ∈ issued (main (Config.load local_environ) (always healthy)) start.
Proof.
  apply (unset_auth_mode_is_multi_tenant local_environ (always healthy) start).
  reflexivity.
Defined.

(** *** The generic checker *)

(** X3. Whatever the network does, [test_endpoint] issues exactly one GET,
    of the URL and with the timeout it was given, and prints exactly two
    lines, the first of which announces the check. *)
Theorem test_endpoint_one_get_two_lines net url name e t w :
  issued (test_endpoint net url name e t) w
    = [{| req_url := url; req_timeout := t |}] /\
  exists report,
    printed (test_endpoint net url name e t) w = [LTesting name url; report].
Proof.
  pose proof (runs_test_endpoint net url name e t w) as H. cbn zeta in H.
  rewrite (runs_issued _ _ _ _ _ H), (runs_printed _ _ _ _ _ H).
  split; [reflexivity|by eexists].
Qed.

(** X4. A failed GET is reported by the first matching handler: anything
    that is a [ConnectionError], a connect timeout included, as a failed
    connection; any other [Timeout] with the timeout that was given; all
    the rest with the text of the exception. *)
Theorem test_endpoint_reports_exception net url name e t w ex :
  net (length (requests w)) {| req_url := url; req_timeout := t |}
    = Fails ex ->
  (isinstance ex ClsConnectionError = true ->
   printed (test_endpoint net url name e t) w
     = [LTesting name url; LConnectionFailed]) /\
  (isinstance ex ClsConnectionError = false ->
   isinstance ex ClsTimeout = true ->
   printed (test_endpoint net url name e t) w
     = [LTesting name url; LTimeout t]) /\
  (isinstance ex ClsConnectionError = false ->
   isinstance ex ClsTimeout = false ->
   printed (test_endpoint net url name e t) w
     = [LTesting name url; LError (str_exc ex)]).
Proof.
  intros Hnet.
  pose proof (runs_test_endpoint net url name e t w) as H. cbn zeta in H.
  rewrite (runs_printed _ _ _ _ _ H), Hnet. cbn [endpoint_line].
  repeat split; intros; by repeat match goal with
                                  | Hi : isinstance _ _ = _ |- _ => rewrite Hi
                                  end.
Qed.

Lemma test_endpoint_reports_exception_witness :
  printed (test_endpoint (always (Fails ConnectTimeout)) "https://example.org"
             "Root" 200 5) start
    = [LTesting "Root" "https://example.org"; LConnectionFailed] /\
  printed (test_endpoint (always (Fails ReadTimeout)) "https://example.org"
             "Root" 200 5) start
    = [LTesting "Root" "https://example.org"; LTimeout 5] /\
  printed (test_endpoint (always (Fails (OtherException "Invalid URL")))
             "https://example.org" "Root" 200 5) start
    = [LTesting "Root" "https://example.org"; LError "Invalid URL"].
Proof.
  split; [|split].
  - by apply (test_endpoint_reports_exception
                (always (Fails ConnectTimeout)) "https://example.org" "Root"
                200 5 start ConnectTimeout).
  - by apply (test_endpoint_reports_exception
                (always (Fails ReadTimeout)) "https://example.org" "Root"
                200 5 start ReadTimeout).
  - by apply (test_endpoint_reports_exception
                (always (Fails (OtherException "Invalid URL")))
                "https://example.org" "Root" 200 5 start
                (OtherException "Invalid URL")).
Defined.

(** X5. A response is reported as a success when its status is the
    expected one, as OK when it is not but is one of 200, 301, 302, 304,
    and as failed otherwise, each time with the status received. *)
Theorem test_endpoint_reports_status net url name e t w r :
  net (length (requests w)) {| req_url := url; req_timeout := t |}
    = Responds r ->
  (status_code r = e ->
   printed (test_endpoint net url name e t) w
     = [LTesting name url; LSuccess (status_code r)]) /\
  (status_code r <> e -> status_code r ∈ [200; 301; 302; 304] ->
   printed (test_endpoint net url name e t) w
     = [LTesting name url; LOk (status_code r)]) /\
  (status_code r <> e -> status_code r ∉ [200; 301; 302; 304] ->
   printed (test_endpoint net url name e t) w
     = [LTesting name url; LFailed (status_code r)]).
Proof.
  intros Hnet.
  pose proof (runs_test_endpoint net url name e t w) as H. cbn zeta in H.
  rewrite (runs_printed _ _ _ _ _ H), Hnet. cbn [endpoint_line].
  repeat split.
  - intros ->. by rewrite Z.eqb_refl.
  - intros Hne Hin. apply Z.eqb_neq in Hne. rewrite Hne.
    apply in_ok_codes_spec in Hin. by rewrite Hin.
  - intros Hne Hnin. apply Z.eqb_neq in Hne. rewrite Hne.
    destruct (in_ok_codes (status_code r)) eqn:Hok; [|reflexivity].
    by apply in_ok_codes_spec in Hok.
Qed.

Lemma test_endpoint_reports_status_witness :
  printed (test_endpoint (always (status 404)) "https://example.org" "Root"
             404 10) start
    = [LTesting "Root" "https://example.org"; LSuccess 404] /\
  printed (test_endpoint (always (status 200)) "https://example.org" "Root"
             404 10) start
    = [LTesting "Root" "https://example.org"; LOk 200] /\
  printed (test_endpoint (always (status 503)) "https://example.org" "Root"
             404 10) start
    = [LTesting "Root" "https://example.org"; LFailed 503].
Proof.
  split; [|split].
  - by apply (test_endpoint_reports_status (always (status 404))
                "https://example.org" "Root" 404 10 start
                {| status_code := 404; json := None |}).
  - apply (test_endpoint_reports_status (always (status 200))
             "https://example.org" "Root" 404 10 start
             {| status_code := 200; json := None |});
      [reflexivity|discriminate|].
    cbn. rewrite !elem_of_cons. by left.
  - apply (test_endpoint_reports_status (always (status 503))
             "https://example.org" "Root" 404 10 start
             {| status_code := 503; json := None |});
      [reflexivity|discriminate|].
    cbn. rewrite !elem_of_cons, elem_of_nil. intuition discriminate.
Defined.

(** X6. [test_dashboard] and [test_api_root] request the configured
    dashboard and API URLs, and pass exactly when the request is answered
    with one of the statuses 200, 301, 302, 304. *)
Theorem test_dashboard_and_root_pass_iff cfg net w :
  let n := length (requests w) in
  issued (test_dashboard cfg net) w = [dashboard_request cfg] /\
  issued (test_api_root cfg net) w = [root_request cfg] /\
  (value (test_dashboard cfg net w) = Returns true <->
   exists r, net n (dashboard_request cfg) = Responds r /\
             status_code r ∈ [200; 301; 302; 304]) /\
  (value (test_api_root cfg net w) = Returns true <->
   exists r, net n (root_request cfg) = Responds r /\
             status_code r ∈ [200; 301; 302; 304]).
Proof.
  intros n.
  assert (forall url name,
    value (test_endpoint net url name 200 10 w) = Returns true <->
    exists r, net n {| req_url := url; req_timeout := 10 |} = Responds r /\
              status_code r ∈ [200; 301; 302; 304]) as Hpass.
  { intros url name.
    rewrite (runs_value _ _ _ _ _ (runs_test_endpoint net url name 200 10 w)).
    fold n. destruct (net n _) as [r|ex]; cbn [verdict].
    - split.
      + intros [= Hok]. exists r. split; [reflexivity|].
        apply status_passes_spec in Hok as [->|?]; [|done].
        rewrite !elem_of_cons. by left.
      + intros (r' & [= <-] & Hin). f_equal.
        apply status_passes_spec. by right.
    - split; [discriminate|]. by intros (r & ? & _). }
  split; [apply (runs_issued _ _ _ _ _
                   (runs_test_endpoint net _ "Dashboard" 200 10 w))|].
  split; [apply (runs_issued _ _ _ _ _
                   (runs_test_endpoint net _ "API Root" 200 10 w))|].
  split; apply Hpass.
Qed.

(** *** The health check *)

(** X7. When the first answer of the health endpoint is a 200 whose body
    parses as JSON, [test_api_health] passes after that single GET and
    prints the parsed body and nothing else: the check is not announced
    and its status is not reported. *)
Theorem test_api_health_on_json cfg net w :
  health_is_json (net (length (requests w)) (health_request cfg)) = true ->
  exists data,
    net (length (requests w)) (health_request cfg)
      = Responds {| status_code := 200; json := Some data |} /\
    test_api_health cfg net w
      = (Returns true,
         {| requests := requests w ++ [health_request cfg];
            stdout := stdout w ++ [LHealth data] |}).
Proof.
  intros Hjson.
  pose proof (runs_test_api_health cfg net w) as H. cbn zeta in H.
  unfold runs, health_value, health_requests, health_stdout in H.
  rewrite Hjson in H.
  destruct (net _ (health_request cfg)) as [[code [data|]]|ex];
    cbn [health_is_json status_code json] in Hjson.
  - rewrite andb_true_r in Hjson. rewrite Hjson in H.
    apply Z.eqb_eq in Hjson as ->.
    by exists data.
  - by rewrite andb_false_r in Hjson.
  - discriminate.
Qed.

Lemma test_api_health_on_json_witness :
  exists data,
    always healthy 0%nat (health_request default_cfg)
      = Responds {| status_code := 200; json := Some data |} /\
    test_api_health default_cfg (always healthy) start
      = (Returns true,
         {| requests := [health_request default_cfg];
            stdout := [LHealth data] |}).
Proof.
  apply (test_api_health_on_json default_cfg (always healthy) start).
  reflexivity.
Defined.

(** X8. A health endpoint that answers 200 passes whether or not its body
    is JSON: if the first GET and, when there is one, the second are
    answered with status 200, [test_api_health] returns true. *)
Theorem test_api_health_passes_on_200 cfg net w r1 r2 :
  let n := length (requests w) in
  net n (health_request cfg) = Responds r1 -> status_code r1 = 200 ->
  net (S n) (health_request cfg) = Responds r2 -> status_code r2 = 200 ->
  value (test_api_health cfg net w) = Returns true.
Proof.
  intros n H1 Hc1 H2 Hc2.
  rewrite (runs_value _ _ _ _ _ (runs_test_api_health cfg net w)).
  unfold health_value. fold n. rewrite H2. cbn [verdict].
  unfold status_passes. rewrite Hc2. cbn.
  by destruct (health_is_json _).
Qed.

Lemma test_api_health_passes_on_200_witness :
  value (test_api_health default_cfg (always (status 200)) start)
    = Returns true.
Proof.
  by apply (test_api_health_passes_on_200 default_cfg (always (status 200))
              start {| status_code := 200; json := None |}
              {| status_code := 200; json := None |}).
Defined.

(** *** The orchestrator *)

Lemma omap_check_lines {B} (f : line -> option B) out :
  (forall l, check_line l = true -> f l = None) ->
  forallb check_line out = true ->
  omap f out = [].
Proof.
  intros Hf. induction out as [|l out IH]; [reflexivity|].
  cbn [forallb]. intros [Hl Hout]%andb_true_iff.
  cbn [omap list_omap]. by rewrite (Hf l Hl), (IH Hout).
Qed.

Lemma check_lines_endpoint name url e t o :
  forallb check_line [LTesting name url; endpoint_line e t o] = true.
Proof.
  destruct o as [r|ex]; cbn [endpoint_line].
  - destruct (status_code r =? e)%Z; [reflexivity|].
    by destruct (in_ok_codes (status_code r)).
  - destruct (isinstance ex ClsConnectionError); [reflexivity|].
    by destruct (isinstance ex ClsTimeout).
Qed.

Lemma check_lines_health cfg net n :
  forallb check_line (health_stdout cfg net n) = true.
Proof.
  unfold health_stdout.
  destruct (net n _) as [[code [data|]]|ex];
    try apply check_lines_endpoint.
  destruct (code =? 200)%Z; [reflexivity|apply check_lines_endpoint].
Qed.

(** What a reading of the console that skips the lines of the checks finds
    in the output of [run_checks]. *)
Lemma omap_checks_stdout {B} (f : line -> option B) cfg net n :
  (forall l, check_line l = true -> f l = None) ->
  omap f (checks_stdout cfg net n) =
  omap f (header "🚀 Dittofeed Deployment Test" ++
          [LConfiguration (Config.API_URL cfg) (Config.DASHBOARD_URL cfg)
             (Config.AUTH_MODE cfg)] ++
          header "1. External Endpoint Tests" ++
          (if multi_tenant cfg then header "2. Multi-Tenant Endpoints"
           else [])).
Proof.
  intros Hf. unfold checks_stdout.
  rewrite !omap_app.
  rewrite (omap_check_lines f _ Hf (check_lines_health cfg net n)).
  change [LTesting "API Root" (Config.API_URL cfg);
          endpoint_line 200 10 (net (after_health cfg net n) (root_request cfg));
          LTesting "Dashboard" (Config.DASHBOARD_URL cfg);
          endpoint_line 200 10
            (net (S (after_health cfg net n)) (dashboard_request cfg))]
    with ([LTesting "API Root" (Config.API_URL cfg);
           endpoint_line 200 10
             (net (after_health cfg net n) (root_request cfg))] ++
          [LTesting "Dashboard" (Config.DASHBOARD_URL cfg);
           endpoint_line 200 10
             (net (S (after_health cfg net n)) (dashboard_request cfg))]).
  rewrite omap_app.
  rewrite !(omap_check_lines f _ Hf (check_lines_endpoint _ _ _ _ _)).
  destruct (multi_tenant cfg); [|reflexivity].
  rewrite omap_app.
  rewrite (omap_check_lines f _ Hf (check_lines_endpoint _ _ _ _ _)).
  by rewrite !app_nil_r.
Qed.

Lemma omap_result_rows {B} (f : line -> option B) results :
  (forall name r, f (LResult name r) = None) ->
  omap f (map (fun p => LResult p.1 p.2) results) = [].
Proof.
  intros Hf. induction results as [|p rest IH]; [reflexivity|].
  cbn [map omap list_omap]. by rewrite Hf, IH.
Qed.

Lemma result_lines_summary cfg results :
  result_lines (summary_stdout cfg results) = results.
Proof.
  unfold summary_stdout, result_lines. rewrite !omap_app.
  assert (omap (fun l => match l with
                         | LResult name r => Some (name, r)
                         | _ => None
                         end)
               (map (fun p => LResult p.1 p.2) results) = results) as ->.
  { induction results as [|[name r] rest IH]; [reflexivity|].
    cbn [map omap list_omap fst snd]. by rewrite IH. }
  destruct (Nat.eqb _ _); cbn; by rewrite app_nil_r.
Qed.

(** X9. The results table read back from the console is the results list:
    [summary] prints one row per entry, in the order of the list and with
    its boolean, for every list, the empty one included; and the table of a
    run of [main] is the list its checks produced. *)
Theorem results_table_is_results cfg net w :
  (forall results w',
     result_lines (printed (summary cfg results) w') = results) /\
  (exists results,
     value (run_checks cfg net w) = Returns results /\
     result_lines (printed (main cfg net) w) = results).
Proof.
  split.
  - intros results w'.
    rewrite (runs_printed _ _ _ _ _ (runs_summary cfg results w')).
    apply result_lines_summary.
  - exists (checks_results cfg net (length (requests w))).
    rewrite (runs_value _ _ _ _ _ (runs_run_checks cfg net w)).
    rewrite (runs_printed _ _ _ _ _ (runs_main cfg net w)).
    split; [reflexivity|].
    unfold result_lines at 1. rewrite omap_app. fold result_lines.
    rewrite result_lines_summary.
    unfold result_lines.
    rewrite omap_checks_stdout by (by intros []).
    by destruct (multi_tenant cfg).
Qed.

(** X10. The last thing a run prints tells its exit code: the access
    information with the configured URLs when [main] returns 0, the
    troubleshooting hints when it returns 1. *)
Theorem main_last_line_tells_exit_code cfg net w :
  exists code,
    value (main cfg net w) = Returns code /\
    last (printed (main cfg net) w)
      = Some (if (code =? 0)%Z
              then LAllPassed (Config.DASHBOARD_URL cfg) (Config.API_URL cfg)
              else LSomeFailed).
Proof.
  set (results := checks_results cfg net (length (requests w))).
  exists (exit_code results).
  rewrite (runs_value _ _ _ _ _ (runs_main cfg net w)).
  rewrite (runs_printed _ _ _ _ _ (runs_main cfg net w)).
  split; [reflexivity|].
  fold results. unfold summary_stdout, exit_code.
  rewrite !app_assoc, last_snoc.
  by destruct (Nat.eqb _ _).
Qed.

(** X11. The headers of a run come in a fixed order: the title, the
    external endpoint tests, the multi-tenant endpoints in multi-tenant
    mode only, and the summary last. *)
Theorem main_headers_in_order cfg net w :
  titles (printed (main cfg net) w) =
  ["🚀 Dittofeed Deployment Test"; "1. External Endpoint Tests"] ++
  (if multi_tenant cfg then ["2. Multi-Tenant Endpoints"] else []) ++
  ["📊 Test Summary"].
Proof.
  rewrite (runs_printed _ _ _ _ _ (runs_main cfg net w)).
  unfold titles. rewrite omap_app.
  rewrite omap_checks_stdout by (by intros []).
  unfold summary_stdout. rewrite !omap_app.
  rewrite omap_result_rows by reflexivity.
  by destruct (multi_tenant cfg), (Nat.eqb _ _).
Qed.

(** X12. A run issues at least three and at most five requests, each with
    a timeout of 10 seconds and each to one of the target URLs of the
    configuration: nothing else is ever contacted. *)
Theorem main_requests_bounded cfg net w :
  (3 <= length (issued (main cfg net) w) <= 5)%nat /\
  Forall (fun rq => req_timeout rq = 10 /\ req_url rq ∈ targets cfg)
         (issued (main cfg net) w).
Proof.
  rewrite (runs_issued _ _ _ _ _ (runs_main cfg net w)).
  unfold checks_requests, health_requests, targets.
  destruct (health_is_json _), (multi_tenant cfg); cbn [length app];
    (split; [lia|]);
    repeat (apply Forall_cons; split;
            [split; [reflexivity|
                     cbn [req_url health_request root_request
                          dashboard_request workspaces_request];
                     rewrite !elem_of_cons; tauto]|]);
    apply Forall_nil_2.
Qed.

(** *** A server that answers each URL in one way *)

Lemma verdict_200_iff o :
  verdict 200 o = true <->
  exists r, o = Responds r /\ status_code r ∈ [200; 301; 302; 304].
Proof.
  destruct o as [r|ex]; cbn [verdict].
  - rewrite status_passes_spec. split.
    + intros [Hc|Hin]; exists r; (split; [reflexivity|]); [|exact Hin].
      rewrite Hc, !elem_of_cons. by left.
    + intros (r' & [= <-] & Hin). by right.
  - split; [discriminate|]. by intros (r & ? & _).
Qed.

Lemma health_value_by_url cfg f n :
  health_value cfg (by_url f) n = verdict 200 (f (health_url cfg)).
Proof.
  unfold health_value, by_url. cbn [req_url health_request].
  destruct (f (health_url cfg)) as [[code js]|ex];
    cbn [health_is_json verdict status_code json]; [|reflexivity].
  unfold status_passes.
  destruct (code =? 200)%Z; [|reflexivity].
  by destruct js.
Qed.

(** X13. Against a server that answers each URL in one way, every check
    gets the verdict of the generic checker on the answer of its own URL,
    the body of the health answer playing no part, and [main] returns 0
    exactly when every target URL is answered with one of the statuses
    200, 301, 302, 304. *)
Theorem consistent_server_run cfg f w :
  value (run_checks cfg (by_url f) w)
    = Returns (zip (configured_checks cfg)
                   ((fun url => verdict 200 (f url)) <$> targets cfg)) /\
  (value (main cfg (by_url f) w) = Returns 0 <->
   Forall (fun url => exists r, f url = Responds r /\
                                status_code r ∈ [200; 301; 302; 304])
          (targets cfg)).
Proof.
  set (n := length (requests w)).
  assert (checks_results cfg (by_url f) n
          = zip (configured_checks cfg)
                ((fun url => verdict 200 (f url)) <$> targets cfg)) as Hres.
  { unfold checks_results, configured_checks, targets.
    rewrite health_value_by_url. unfold by_url.
    cbn [req_url root_request dashboard_request workspaces_request].
    by destruct (multi_tenant cfg). }
  rewrite (runs_value _ _ _ _ _ (runs_run_checks cfg (by_url f) w)).
  rewrite (runs_value _ _ _ _ _ (runs_main cfg (by_url f) w)).
  fold n. split; [by rewrite Hres|].
  assert (Returns (exit_code (checks_results cfg (by_url f) n)) = Returns 0
          <-> exit_code (checks_results cfg (by_url f) n) = 0) as ->
    by (split; congruence).
  rewrite exit_code_zero, Hres.
  unfold configured_checks, targets.
  destruct (multi_tenant cfg); cbn [app fmap list_fmap zip zip_with];
    rewrite !Forall_cons, !Forall_nil; cbn [snd];
    rewrite !verdict_200_iff; tauto.
Qed.
